(* ===================================================================== *)
(* ProductForm (src/components/inventory/product-form.tsx)               *)
(*                                                                       *)
(* A shallow embedding of the inventory item form: the JavaScript values *)
(* it manipulates, the computation of its default values, the submit     *)
(* handler `handleSave`, the type toggle `handleTypeChange`, the part of *)
(* the rendered tree that depends on component state, and the component  *)
(* as an event-driven state machine.                                     *)
(* ===================================================================== *)

From stdpp Require Import base strings gmap list fin_maps.

Open Scope string_scope.
Open Scope list_scope.

(* --------------------------------------------------------------------- *)
(* JavaScript values                                                     *)
(* --------------------------------------------------------------------- *)

(** The values that flow through the form.  `initialData` is typed `any`,
    so a field can hold any of these.  Numbers are only carried around and
    tested for truthiness, never computed on: an integer payload plus a
    separate NaN is all the component can observe.  [JDate v] is the object
    built by `new Date(v)`. *)
Inductive value : Type :=
  | JUndefined
  | JNull
  | JBool (b : bool)
  | JNum (n : Z)
  | JNaN
  | JStr (s : string)
  | JDate (src : value).

#[global] Instance value_eq_dec : EqDecision value.
Proof. solve_decision. Defined.

#[global] Instance value_inhabited : Inhabited value := populate JUndefined.

(** A plain JavaScript object with string keys. *)
Abbreviation obj := (gmap string value).

(** ToBoolean. *)
Definition truthy (v : value) : bool :=
  match v with
  | JUndefined | JNull | JNaN => false
  | JBool b => b
  | JNum n => negb (n =? 0)%Z
  | JStr s => negb (String.eqb s "")
  | JDate _ => true
  end.

(** `a || b` *)
Definition js_or (a b : value) : value := if truthy a then a else b.

(** `o?.k` on an optional object: `undefined` when the object is missing or
    has no such property. *)
Definition opt_get (o : option obj) (k : string) : value :=
  match o with
  | Some m => default JUndefined (m !! k)
  | None => JUndefined
  end.

(** `v === 'lit'` against a string literal. *)
Definition strict_eq_str (v : value) (lit : string) : bool :=
  match v with
  | JStr s => String.eqb s lit
  | _ => false
  end.

(** `{ ...o, k: v }` *)
Definition spread_with (o : obj) (k : string) (v : value) : obj := <[k := v]> o.

(* --------------------------------------------------------------------- *)
(* Props and default values (lines 32-64)                                *)
(* --------------------------------------------------------------------- *)

Record ProductFormProps := {
  initialData : option obj;
  productId : option string;
}.

(** The right-hand sides of the `||` defaults of lines 44-62, by key. *)
Definition plain_defaults : list (string * value) :=
  [ ("name", JStr "");
    ("description", JStr "");
    ("sku", JStr "");
    ("hsn_code", JStr "");
    ("price", JNum 0);
    ("cost_price", JNum 0);
    ("stock_quantity", JNum 0);
    ("gst_rate", JNum 0);
    ("unit", JStr "pcs");
    ("low_stock_threshold", JNum 5);
    ("type", JStr "product");
    ("image_url", JStr "");
    ("barcode", JStr "");
    ("category", JStr "");
    ("tax_type", JStr "exclusive");
    ("purchase_tax_type", JStr "exclusive");
    ("discount", JNum 0);
    ("discount_type", JStr "percentage");
    ("wholesale_price", JUndefined) ].

(** `initialData?.opening_stock_date ? new Date(initialData.opening_stock_date)
    : undefined` *)
Definition opening_stock_date_default (init : option obj) : value :=
  let d := opt_get init "opening_stock_date" in
  if truthy d then JDate d else JUndefined.

(** The object literal `defaultValues`: every plain key is
    `initialData?.k || dflt`, and the date is converted. *)
Definition defaultValues (init : option obj) : obj :=
  list_to_map
    (map (fun '(k, dflt) => (k, js_or (opt_get init k) dflt)) plain_defaults
     ++ [("opening_stock_date", opening_stock_date_default init)]).

(** `React.useState(initialData?.type || 'product')` *)
Definition initial_itemType (init : option obj) : value :=
  js_or (opt_get init "type") (JStr "product").

(* --------------------------------------------------------------------- *)
(* Component state, effects and the world the handlers act on            *)
(* --------------------------------------------------------------------- *)

(** A value thrown by `createProduct` / `updateProduct`: an Error object,
    of which the handler reads the `message` property only. *)
Record error := { message : value }.

#[global] Instance error_eq_dec : EqDecision error.
Proof. solve_decision. Defined.

(** Every call the handlers make on something outside themselves, in the
    order they make it. *)
Inductive effect : Type :=
  | SetLoading (b : bool)
  | SetItemType (t : value)
  | UpdateProduct (id : string) (data : obj)
  | CreateProduct (data : obj)
  | ToastSuccess (msg : string)
  | ToastError (msg : value)
  | ConsoleError (e : error)
  | RouterRefresh
  | RouterPush (path : string)
  | RouterBack
  | FormReset (vals : obj)
  | FormSetValue (k : string) (v : value).

#[global] Instance effect_eq_dec : EqDecision effect.
Proof. solve_decision. Defined.

(** The hooks of the component: three `useState` cells and the store kept by
    `useForm` (current values and per-field error messages). *)
Record state := {
  loading : bool;
  showWholesale : bool;
  itemType : value;
  form_values : obj;
  form_errors : gmap string string;
}.

(** What a handler closes over: it is created by one render and sees the
    `productId`, `itemType` and `defaultValues` of that render. *)
Record closure := {
  c_productId : option string;
  c_itemType : value;
  c_defaultValues : obj;
}.

(** A `handleSave` suspended at its `await`. *)
Record suspended := {
  s_env : closure;
  s_redirect : bool;
}.

Record world := {
  ui : state;
  log : list effect;
  inflight : list suspended;
}.

(** A statement: the world it leaves, and the exception that escapes it. *)
Definition Cmd : Type := world -> world * option error.

Definition skip : Cmd := fun w => (w, None).

Definition throw (e : error) : Cmd := fun w => (w, Some e).

Definition seq (a b : Cmd) : Cmd := fun w =>
  match a w with
  | (w1, None) => b w1
  | (w1, Some e) => (w1, Some e)
  end.

Declare Scope cmd_scope.
Delimit Scope cmd_scope with cmd.
Bind Scope cmd_scope with Cmd.
Notation "a ;; b" := (seq a b)
  (at level 100, b at level 200, right associativity) : cmd_scope.
Open Scope cmd_scope.

(** `try { body } catch (error) { handler } finally { fin }` *)
Definition try_catch_finally (body : Cmd) (handler : error -> Cmd) (fin : Cmd)
    : Cmd := fun w =>
  let '(w1, r1) := body w in
  let '(w2, r2) := match r1 with
                   | None => (w1, None)
                   | Some e => handler e w1
                   end in
  let '(w3, r3) := fin w2 in
  (w3, match r3 with Some e => Some e | None => r2 end).

Definition emit (e : effect) : Cmd := fun w =>
  ({| ui := ui w; log := log w ++ [e]; inflight := inflight w |}, None).

Definition modify (f : state -> state) : Cmd := fun w =>
  ({| ui := f (ui w); log := log w; inflight := inflight w |}, None).

Definition with_loading (b : bool) (s : state) : state :=
  {| loading := b; showWholesale := showWholesale s; itemType := itemType s;
     form_values := form_values s; form_errors := form_errors s |}.

Definition with_showWholesale (b : bool) (s : state) : state :=
  {| loading := loading s; showWholesale := b; itemType := itemType s;
     form_values := form_values s; form_errors := form_errors s |}.

Definition with_itemType (t : value) (s : state) : state :=
  {| loading := loading s; showWholesale := showWholesale s; itemType := t;
     form_values := form_values s; form_errors := form_errors s |}.

Definition with_form (vals : obj) (errs : gmap string string) (s : state)
    : state :=
  {| loading := loading s; showWholesale := showWholesale s;
     itemType := itemType s; form_values := vals; form_errors := errs |}.

Definition setLoading (b : bool) : Cmd :=
  emit (SetLoading b) ;; modify (with_loading b).

Definition setShowWholesale (b : bool) : Cmd :=
  modify (with_showWholesale b).

Definition setItemType (t : value) : Cmd :=
  emit (SetItemType t) ;; modify (with_itemType t).

(** `form.setValue(k, v)` *)
Definition form_setValue (k : string) (v : value) : Cmd :=
  emit (FormSetValue k v) ;;
  modify (fun s => with_form (<[k := v]> (form_values s)) (form_errors s) s).

(** `form.reset(vals)`: the values are replaced and the errors dropped. *)
Definition form_reset (vals : obj) : Cmd :=
  emit (FormReset vals) ;; modify (with_form vals ∅).

(** `field.onChange(v)` of the field registered under [k]. *)
Definition field_onChange (k : string) (v : value) : Cmd :=
  modify (fun s => with_form (<[k := v]> (form_values s)) (form_errors s) s).

Definition toast_success (msg : string) : Cmd := emit (ToastSuccess msg).
Definition toast_error (msg : value) : Cmd := emit (ToastError msg).
Definition console_error (e : error) : Cmd := emit (ConsoleError e).
Definition router_refresh : Cmd := emit RouterRefresh.
Definition router_push (path : string) : Cmd := emit (RouterPush path).
Definition router_back : Cmd := emit RouterBack.

(** How an awaited promise settles. *)
Inductive outcome : Type :=
  | Resolved
  | Rejected (e : error).

(** The point where an `await` is resumed: nothing on fulfilment, the
    rejection reason thrown otherwise. *)
Definition settle (o : outcome) : Cmd :=
  match o with
  | Resolved => skip
  | Rejected e => throw e
  end.

(** `await call(...)`, for a call that settles as [o]. *)
Definition await (call : effect) (o : outcome) : Cmd :=
  emit call ;; settle o.

(* --------------------------------------------------------------------- *)
(* handleTypeChange (lines 109-112) and handleSave (lines 71-104)        *)
(* --------------------------------------------------------------------- *)

Definition handleTypeChange (type : value) : Cmd :=
  setItemType type ;;
  form_setValue "type" type.

(** `if (productId)`: a missing prop and the empty string are both falsy. *)
Definition productId_truthy (p : option string) : option string :=
  match p with
  | Some id => if String.eqb id "" then None else Some id
  | None => None
  end.

Definition handleSave (env : closure) (data : obj) (shouldRedirect : bool)
    (o : outcome) : Cmd :=
  try_catch_finally
    (setLoading true ;;
     let submissionData := spread_with data "type" (c_itemType env) in
     match productId_truthy (c_productId env) with
     | Some id =>
         await (UpdateProduct id submissionData) o ;;
         toast_success "Item updated successfully"
     | None =>
         await (CreateProduct submissionData) o ;;
         toast_success "Item created successfully"
     end ;;
     router_refresh ;;
     if shouldRedirect then
       router_push "/dashboard/inventory"
     else
       form_reset (spread_with (c_defaultValues env) "type" (c_itemType env)) ;;
       handleTypeChange (c_itemType env))
    (fun error =>
       toast_error (js_or (message error) (JStr "Something went wrong")) ;;
       console_error error)
    (setLoading false).

Definition onSubmit (env : closure) (data : obj) : outcome -> Cmd :=
  handleSave env data true.

Definition onSaveAndNew (env : closure) (data : obj) : outcome -> Cmd :=
  handleSave env data false.

(** The closure built by a render of the component in state [s]. *)
Definition capture (P : ProductFormProps) (s : state) : closure :=
  {| c_productId := productId P;
     c_itemType := itemType s;
     c_defaultValues := defaultValues (initialData P) |}.

(** What a command appended to the log. *)
Definition new_effects (w w' : world) : list effect :=
  drop (length (log w)) (log w').

(* --------------------------------------------------------------------- *)
(* handleSave in two phases, as the event loop runs it                   *)
(* --------------------------------------------------------------------- *)

(** `handleSave` up to the point where it suspends: the flag is raised and
    the request is sent. *)
Definition handleSave_begin (env : closure) (data : obj) : Cmd :=
  setLoading true ;;
  let submissionData := spread_with data "type" (c_itemType env) in
  match productId_truthy (c_productId env) with
  | Some id => emit (UpdateProduct id submissionData)
  | None => emit (CreateProduct submissionData)
  end.

(** `handleSave` from the moment the awaited call settles as [o]. *)
Definition handleSave_resume (env : closure) (shouldRedirect : bool)
    (o : outcome) : Cmd :=
  try_catch_finally
    (settle o ;;
     match productId_truthy (c_productId env) with
     | Some _ => toast_success "Item updated successfully"
     | None => toast_success "Item created successfully"
     end ;;
     router_refresh ;;
     if shouldRedirect then
       router_push "/dashboard/inventory"
     else
       form_reset (spread_with (c_defaultValues env) "type" (c_itemType env)) ;;
       handleTypeChange (c_itemType env))
    (fun error =>
       toast_error (js_or (message error) (JStr "Something went wrong")) ;;
       console_error error)
    (setLoading false).

Definition suspend (k : suspended) : Cmd := fun w =>
  ({| ui := ui w; log := log w; inflight := inflight w ++ [k] |}, None).

Definition resume_at (i : nat) : Cmd := fun w =>
  ({| ui := ui w; log := log w; inflight := delete i (inflight w) |}, None).

(* --------------------------------------------------------------------- *)
(* The rendered tree (lines 114-562), as far as it depends on state      *)
(* --------------------------------------------------------------------- *)

Record view := {
  v_title : string;
  v_subtitle : string;
  v_tab_triggers : list string;
  v_tab_contents : list string;
  v_fields : list string;
  v_messages : list (string * string);
  v_save_and_new_disabled : bool;
  v_save_disabled : bool;
  v_save_label : string;
}.

(** The `FormField`s of each tab, by `name`. *)
Definition general_fields : list string :=
  ["name"; "hsn_code"; "unit"; "category"; "sku"; "description"].

Definition pricing_fields (wholesale : bool) : list string :=
  ["price"; "tax_type"; "discount"; "discount_type"]
  ++ (if wholesale then ["wholesale_price"] else [])
  ++ ["cost_price"; "purchase_tax_type"; "gst_rate"].

Definition stock_fields : list string :=
  ["stock_quantity"; "opening_stock_date"; "low_stock_threshold"].

(** The fields whose `FormItem` contains a `<FormMessage />`. *)
Definition message_fields : list string :=
  ["name"; "unit"; "category"; "price"].

(** The fields whose label carries the red asterisk. *)
Definition required_fields : list string := ["name"; "price"].

(** Modelled from the spec: `FormMessage` of `@/components/ui/form`, which
    is not under src/.  Per the spec, validation errors are reported inline
    per field: the message slot of a field shows that field's error, and
    nothing when it has none. *)
Definition FormMessage (errs : gmap string string) (k : string)
    : option (string * string) :=
  (fun msg => (k, msg)) <$> errs !! k.

Definition render (P : ProductFormProps) (s : state) : view :=
  let is_product := strict_eq_str (itemType s) "product" in
  {| v_title :=
       match productId_truthy (productId P) with
       | Some _ => "Edit Item"
       | None => "Add Item"
       end;
     v_subtitle :=
       if is_product then "Manage stock and pricing for your products"
       else "Setup service details and pricing";
     v_tab_triggers :=
       ["general"; "pricing"] ++ (if is_product then ["stock"] else []);
     v_tab_contents :=
       ["general"; "pricing"] ++ (if is_product then ["stock"] else []);
     v_fields :=
       general_fields ++ pricing_fields (showWholesale s)
       ++ (if is_product then stock_fields else []);
     v_messages := omap (FormMessage (form_errors s)) message_fields;
     v_save_and_new_disabled := loading s;
     v_save_disabled := loading s;
     v_save_label := if loading s then "Saving..." else "Save" |}.

(* --------------------------------------------------------------------- *)
(* The component as a machine driven by user events and settlements      *)
(* --------------------------------------------------------------------- *)

(** What `zodResolver(productSchema)` hands back: the parsed values, and the
    error message of each field that failed. *)
Record resolver_result := {
  r_values : obj;
  r_errors : gmap string string;
}.

Inductive event : Type :=
  | ClickSave
  | ClickSaveAndNew
  | ClickProduct
  | ClickService
  | ClickWholesale
  | ClickCancel
  | Change (k : string) (v : value)
  | Settle (i : nat) (o : outcome).

Definition init (P : ProductFormProps) : world :=
  {| ui := {| loading := false;
              showWholesale := false;
              itemType := initial_itemType (initialData P);
              form_values := defaultValues (initialData P);
              form_errors := ∅ |};
     log := [];
     inflight := [] |}.

Section Component.

(** `productSchema` lives in `@/lib/schemas/product`, outside src/: the
    resolver built from it is a parameter. *)
Variable resolver : obj -> resolver_result.
Variable P : ProductFormProps.

(** Modelled from the spec: `form.handleSubmit` of the validation library,
    which is not under src/.  Per the spec, field-level validation errors
    are recorded per field and block submission; otherwise the handler
    receives the validated values. *)
Definition handleSubmit (onValid : obj -> Cmd) : Cmd := fun w =>
  let r := resolver (form_values (ui w)) in
  if decide (r_errors r = ∅) then
    (modify (fun s => with_form (form_values s) ∅ s) ;;
     onValid (r_values r)) w
  else
    modify (fun s => with_form (form_values s) (r_errors r) s) w.

(** A click that submits: validation, then `handleSave` runs to its
    `await` and is parked there. *)
Definition submit_click (shouldRedirect : bool) : Cmd := fun w =>
  let env := capture P (ui w) in
  handleSubmit
    (fun data =>
       handleSave_begin env data ;;
       suspend {| s_env := env; s_redirect := shouldRedirect |}) w.

(** One turn of the event loop.  The tree is rendered from the current
    state before the event is dispatched: a disabled button and a field
    that is not mounted deliver nothing. *)
Definition step (w : world) (e : event) : world :=
  let v := render P (ui w) in
  match e with
  | ClickSave =>
      if v_save_disabled v then w else fst (submit_click true w)
  | ClickSaveAndNew =>
      if v_save_and_new_disabled v then w else fst (submit_click false w)
  | ClickProduct => fst (handleTypeChange (JStr "product") w)
  | ClickService => fst (handleTypeChange (JStr "service") w)
  | ClickWholesale =>
      fst (setShowWholesale (negb (showWholesale (ui w))) w)
  | ClickCancel => fst (router_back w)
  | Change k x =>
      if decide (k ∈ v_fields v) then fst (field_onChange k x w) else w
  | Settle i o =>
      match inflight w !! i with
      | Some k =>
          fst ((resume_at i ;;
                handleSave_resume (s_env k) (s_redirect k) o) w)
      | None => w
      end
  end.

Definition run (w : world) (es : list event) : world := foldl step w es.

Definition reachable (w : world) : Prop := ∃ es, w = run (init P) es.

End Component.

(* --------------------------------------------------------------------- *)
(* Sample inputs                                                         *)
(* --------------------------------------------------------------------- *)

(** A schema that only insists on a non-empty name. *)
Definition ex_resolver (vals : obj) : resolver_result :=
  if truthy (default JUndefined (vals !! "name")) then
    {| r_values := vals; r_errors := ∅ |}
  else
    {| r_values := ∅; r_errors := {[ "name" := "Name is required" ]} |}.

Definition ex_new : ProductFormProps :=
  {| initialData := None; productId := None |}.

Definition ex_record : obj :=
  list_to_map
    [ ("name", JStr "Pen"); ("price", JNum 12); ("type", JStr "service");
      ("unit", JStr "box"); ("description", JNull);
      ("low_stock_threshold", JNum 0);
      ("opening_stock_date", JStr "2024-04-01") ].

Definition ex_edit : ProductFormProps :=
  {| initialData := Some ex_record; productId := Some "p1" |}.

Definition ex_empty_id : ProductFormProps :=
  {| initialData := None; productId := Some "" |}.

Definition ex_data : obj :=
  list_to_map [ ("name", JStr "Ink"); ("price", JNum 3); ("type", JStr "bogus") ].

Definition ex_error : error := {| message := JStr "duplicate sku" |}.

(** The request `handleSave` sends, and the notification that follows its
    success (lines 76-82), named for the statements below. *)
Definition request (env : closure) (data : obj) : effect :=
  match productId_truthy (c_productId env) with
  | Some id => UpdateProduct id (spread_with data "type" (c_itemType env))
  | None => CreateProduct (spread_with data "type" (c_itemType env))
  end.

Definition success_message (env : closure) : string :=
  match productId_truthy (c_productId env) with
  | Some _ => "Item updated successfully"
  | None => "Item created successfully"
  end.

(** The record a call carries. *)
Definition call_data (e : effect) : option obj :=
  match e with
  | UpdateProduct _ d | CreateProduct d => Some d
  | _ => None
  end.

(** The calls and notifications among a list of effects. *)
Definition is_call (e : effect) : bool :=
  match e with
  | UpdateProduct _ _ | CreateProduct _ => true
  | _ => false
  end.

Definition is_toast (e : effect) : bool :=
  match e with
  | ToastSuccess _ | ToastError _ => true
  | _ => false
  end.

Definition is_call_or_toast (e : effect) : bool := is_call e || is_toast e.

(** Effects that reset the form or leave / reload the page. *)
Definition is_reset_or_navigation (e : effect) : bool :=
  match e with
  | FormReset _ | FormSetValue _ _ | SetItemType _
  | RouterRefresh | RouterPush _ | RouterBack => true
  | _ => false
  end.

(** The in-flight guard: at most one `handleSave` is parked at its `await`,
    and `loading` is up exactly while one is. *)
Definition single_flight (w : world) : Prop :=
  (length (inflight w) ≤ 1)%nat ∧ (loading (ui w) = true ↔ inflight w ≠ []).

(** The form's `type` field agrees with the toggle. *)
Definition type_in_sync (w : world) : Prop :=
  form_values (ui w) !! "type" = Some (itemType (ui w)).

(* --------------------------------------------------------------------- *)
(* Further parts of the tree and vocabulary for the statements below     *)
(* --------------------------------------------------------------------- *)

(** The keys of the object literal `defaultValues` (lines 44-63). *)
Definition form_keys : list string :=
  plain_defaults.*1 ++ ["opening_stock_date"].

(** The `variant` of the two toggle buttons (lines 132 and 141). *)
Definition product_button_variant (s : state) : string :=
  if strict_eq_str (itemType s) "product" then "default" else "ghost".

Definition service_button_variant (s : state) : string :=
  if strict_eq_str (itemType s) "service" then "default" else "ghost".

(** A value of the declared type `'product' | 'service'`. *)
Definition is_item_type (v : value) : Prop :=
  v = JStr "product" ∨ v = JStr "service".

(** Every parked handler closed over a value of the declared type. *)
Definition typed_world (w : world) : Prop :=
  is_item_type (itemType (ui w))
  ∧ Forall (λ k, is_item_type (c_itemType (s_env k))) (inflight w).

(** How many create/update calls and how many notifications a log holds. *)
Definition calls_made (w : world) : nat :=
  length (List.filter is_call (log w)).

Definition toasts_shown (w : world) : nat :=
  length (List.filter is_toast (log w)).

(** A record that carries a wholesale price. *)
Definition ex_wholesale : ProductFormProps :=
  {| initialData :=
       Some (list_to_map [ ("name", JStr "Rice"); ("wholesale_price", JNum 40);
                           ("id", JStr "row-7") ]);
     productId := Some "p2" |}.

(* ===================================================================== *)
(* Properties                                                            *)
(* ===================================================================== *)

Lemma new_effects_app (w w' : world) (l : list effect) :
  log w' = log w ++ l → new_effects w w' = l.
Proof.
  intros Hlog. unfold new_effects. rewrite Hlog. apply drop_app_length.
Qed.

Ltac run_cmd :=
  cbv [handleSave handleSave_begin handleSave_resume try_catch_finally seq
       setLoading setItemType setShowWholesale emit modify await settle skip
       throw toast_success toast_error console_error router_refresh
       router_push router_back form_reset form_setValue field_onChange
       handleTypeChange suspend resume_at onSubmit onSaveAndNew];
  cbn [fst snd ui log inflight loading showWholesale itemType form_values
       form_errors with_loading with_showWholesale with_itemType with_form
       capture c_productId c_itemType c_defaultValues s_env s_redirect].

Arguments defaultValues : simpl never.
Arguments spread_with : simpl never.

Ltac norm_log := rewrite <- ?app_assoc; cbn [app].

(** Running the handler in one piece is running it to the `await` and then
    resuming it with the settlement. *)
Lemma handleSave_split env data shouldRedirect o w :
  handleSave env data shouldRedirect o w
  = (handleSave_begin env data ;; handleSave_resume env shouldRedirect o) w.
Proof.
  run_cmd.
  destruct (productId_truthy (c_productId env)), o, shouldRedirect;
    reflexivity.
Qed.

(** No exception escapes `handleSave`, however the call settles. *)
Lemma handleSave_no_escape env data shouldRedirect o w :
  snd (handleSave env data shouldRedirect o w) = None.
Proof.
  run_cmd.
  destruct (productId_truthy (c_productId env)), o, shouldRedirect;
    reflexivity.
Qed.

Lemma productId_truthy_Some id :
  id ≠ "" → productId_truthy (Some id) = Some id.
Proof.
  intros Hid. unfold productId_truthy.
  destruct (String.eqb_spec id "") as [->|_]; [done | reflexivity].
Qed.

(* --------------------------------------------------------------------- *)
(* C1: update or create, and the matching success notification          *)
(* --------------------------------------------------------------------- *)

(** C1 (as amended).  When the awaited call succeeds, the calls and
    notifications of `handleSave` are exactly: `updateProduct(productId,
    data with type := itemType)` followed by 'Item updated successfully' when
    a non-empty productId is supplied; `createProduct(data with type :=
    itemType)` followed by 'Item created successfully' when productId is
    absent or is the empty string. *)
Theorem handleSave_update_or_create
    (P : ProductFormProps) (data : obj) (shouldRedirect : bool) (w : world) :
  (∀ id, productId P = Some id → id ≠ "" →
     List.filter is_call_or_toast
       (new_effects w
          (fst (handleSave (capture P (ui w)) data shouldRedirect Resolved w)))
     = [UpdateProduct id (<["type" := itemType (ui w)]> data);
        ToastSuccess "Item updated successfully"])
  ∧ (productId P = None ∨ productId P = Some "" →
     List.filter is_call_or_toast
       (new_effects w
          (fst (handleSave (capture P (ui w)) data shouldRedirect Resolved w)))
     = [CreateProduct (<["type" := itemType (ui w)]> data);
        ToastSuccess "Item created successfully"]).
Proof.
  split.
  - intros id Hp Hid.
    destruct shouldRedirect;
      (erewrite new_effects_app;
       [| run_cmd; rewrite Hp, (productId_truthy_Some id Hid);
          cbn [fst log]; norm_log; reflexivity]);
      reflexivity.
  - intros Hp.
    assert (productId_truthy (productId P) = None) as Hnone
      by (destruct Hp as [-> | ->]; reflexivity).
    destruct shouldRedirect;
      (erewrite new_effects_app;
       [| run_cmd; rewrite Hnone; cbn [fst log]; norm_log; reflexivity]);
      reflexivity.
Qed.

(** Both branches of C1 at concrete inputs: an edit form with id "p1" and
    a creation form. *)
Lemma handleSave_update_or_create_witness :
  List.filter is_call_or_toast
    (new_effects (init ex_edit)
       (fst (handleSave (capture ex_edit (ui (init ex_edit))) ex_data true
               Resolved (init ex_edit))))
  = [UpdateProduct "p1" (<["type" := JStr "service"]> ex_data);
     ToastSuccess "Item updated successfully"]
  ∧ List.filter is_call_or_toast
      (new_effects (init ex_new)
         (fst (handleSave (capture ex_new (ui (init ex_new))) ex_data false
                 Resolved (init ex_new))))
    = [CreateProduct (<["type" := JStr "product"]> ex_data);
       ToastSuccess "Item created successfully"].
Proof.
  split.
  - apply (proj1 (handleSave_update_or_create ex_edit ex_data true
                    (init ex_edit)) "p1"); [reflexivity | discriminate].
  - apply (proj2 (handleSave_update_or_create ex_new ex_data false
                    (init ex_new))); left; reflexivity.
Defined.

(** C1 as stated fails when the supplied productId is the empty string: the
    guard `if (productId)` is false, so the item is created, not updated. *)
Lemma handleSave_empty_id_creates :
  productId ex_empty_id = Some ""
  ∧ List.filter is_call_or_toast
      (new_effects (init ex_empty_id)
         (fst (handleSave (capture ex_empty_id (ui (init ex_empty_id)))
                 ex_data true Resolved (init ex_empty_id))))
    = [CreateProduct (<["type" := JStr "product"]> ex_data);
       ToastSuccess "Item created successfully"].
Proof. split; [reflexivity | vm_compute; reflexivity]. Qed.

(* --------------------------------------------------------------------- *)
(* The complete effect of handleSave, case by case                       *)
(* --------------------------------------------------------------------- *)

Lemma handleSave_begin_world env data w :
  handleSave_begin env data w
  = ({| ui := with_loading true (ui w);
        log := log w ++ [SetLoading true; request env data];
        inflight := inflight w |}, None).
Proof.
  unfold request. run_cmd.
  destruct (productId_truthy (c_productId env));
    cbn [fst log]; norm_log; reflexivity.
Qed.

Lemma handleSave_rejected_world env data shouldRedirect e w :
  handleSave env data shouldRedirect (Rejected e) w
  = ({| ui := with_loading false (ui w);
        log := log w ++
               [SetLoading true; request env data;
                ToastError (js_or (message e) (JStr "Something went wrong"));
                ConsoleError e; SetLoading false];
        inflight := inflight w |}, None).
Proof.
  unfold request. run_cmd.
  destruct (productId_truthy (c_productId env));
    cbn [fst log]; norm_log; reflexivity.
Qed.

Lemma handleSave_redirect_world env data w :
  handleSave env data true Resolved w
  = ({| ui := with_loading false (ui w);
        log := log w ++
               [SetLoading true; request env data;
                ToastSuccess (success_message env);
                RouterRefresh; RouterPush "/dashboard/inventory";
                SetLoading false];
        inflight := inflight w |}, None).
Proof.
  unfold request, success_message. run_cmd.
  destruct (productId_truthy (c_productId env));
    cbn [fst log]; norm_log; reflexivity.
Qed.

Lemma handleSave_reset_world env data w :
  handleSave env data false Resolved w
  = ({| ui := {| loading := false;
                 showWholesale := showWholesale (ui w);
                 itemType := c_itemType env;
                 form_values :=
                   <["type" := c_itemType env]>
                     (<["type" := c_itemType env]> (c_defaultValues env));
                 form_errors := ∅ |};
        log := log w ++
               [SetLoading true; request env data;
                ToastSuccess (success_message env);
                RouterRefresh;
                FormReset (<["type" := c_itemType env]> (c_defaultValues env));
                SetItemType (c_itemType env);
                FormSetValue "type" (c_itemType env);
                SetLoading false];
        inflight := inflight w |}, None).
Proof.
  unfold request, success_message. run_cmd.
  destruct (productId_truthy (c_productId env));
    cbn [fst log]; norm_log; reflexivity.
Qed.

Lemma request_is_call env data : is_call (request env data) = true.
Proof. unfold request. by destruct (productId_truthy _). Qed.

Lemma request_not_reset env data :
  is_reset_or_navigation (request env data) = false.
Proof. unfold request. by destruct (productId_truthy _). Qed.

Lemma request_data env data :
  call_data (request env data) = Some (<["type" := c_itemType env]> data).
Proof. unfold request. by destruct (productId_truthy _). Qed.

(** Every plain key of `defaultValues` holds `initialData?.k || dflt`. *)
Lemma defaultValues_lookup (init : option obj) (k : string) (dflt : value) :
  (k, dflt) ∈ plain_defaults →
  defaultValues init !! k = Some (js_or (opt_get init k) dflt).
Proof.
  unfold plain_defaults. intros H.
  repeat (apply elem_of_cons in H as [H | H];
          [injection H as -> ->; vm_compute; reflexivity |]).
  by apply elem_of_nil in H.
Qed.

Lemma defaultValues_lookup_date (init : option obj) :
  defaultValues init !! "opening_stock_date"
  = Some (opening_stock_date_default init).
Proof. vm_compute. reflexivity. Qed.


(* --------------------------------------------------------------------- *)
(* C2, C3: the error path                                                *)
(* --------------------------------------------------------------------- *)

(** C2.  Whatever error the awaited create/update call throws, `handleSave`
    lets no exception escape, and after the single call it does exactly
    this: an error notification carrying the error's message, or 'Something
    went wrong' when the message is empty (falsy), then `console.error` of
    the error, then the `finally` block.  The call is made once: there is no
    retry and no recovery step. *)
Theorem handleSave_catches_and_reports
    (env : closure) (data : obj) (shouldRedirect : bool) (e : error)
    (w : world) :
  snd (handleSave env data shouldRedirect (Rejected e) w) = None
  ∧ ∃ call,
      is_call call = true
      ∧ new_effects w (fst (handleSave env data shouldRedirect (Rejected e) w))
        = [SetLoading true; call;
           ToastError (if truthy (message e) then message e
                       else JStr "Something went wrong");
           ConsoleError e;
           SetLoading false].
Proof.
  rewrite handleSave_rejected_world. split; [reflexivity |].
  exists (request env data). split; [apply request_is_call |].
  by apply new_effects_app.
Qed.

(** C3.  After a failed create or update call the hooks are as they were
    (form values, form errors, item type, wholesale toggle), except that
    `loading` is false; the handler has neither reset the form nor touched
    the router. *)
Theorem handleSave_failure_keeps_form
    (env : closure) (data : obj) (shouldRedirect : bool) (e : error)
    (w : world) :
  let w' := fst (handleSave env data shouldRedirect (Rejected e) w) in
  form_values (ui w') = form_values (ui w)
  ∧ form_errors (ui w') = form_errors (ui w)
  ∧ itemType (ui w') = itemType (ui w)
  ∧ showWholesale (ui w') = showWholesale (ui w)
  ∧ loading (ui w') = false
  ∧ List.filter is_reset_or_navigation (new_effects w w') = [].
Proof.
  cbv zeta. rewrite handleSave_rejected_world. cbn [fst ui].
  repeat split.
  erewrite new_effects_app; [| reflexivity].
  cbn [List.filter is_reset_or_navigation].
  by rewrite request_not_reset.
Qed.

(* --------------------------------------------------------------------- *)
(* C4, C5: the two success paths                                         *)
(* --------------------------------------------------------------------- *)




(** C5.  On the primary Save path (`onSubmit`, i.e. shouldRedirect = true) a
    successful call is followed by its success notification, then
    `router.refresh()`, then `router.push('/dashboard/inventory')`, then the
    `finally` block; no exception escapes. *)
Theorem save_refreshes_then_navigates
    (env : closure) (data : obj) (w : world) :
  snd (onSubmit env data Resolved w) = None
  ∧ ∃ call msg,
      is_call call = true
      ∧ new_effects w (fst (onSubmit env data Resolved w))
        = [SetLoading true; call; ToastSuccess msg;
           RouterRefresh; RouterPush "/dashboard/inventory";
           SetLoading false].
Proof.
  unfold onSubmit. rewrite handleSave_redirect_world.
  split; [reflexivity |].
  exists (request env data), (success_message env).
  split; [apply request_is_call |].
  by apply new_effects_app.
Qed.

(* --------------------------------------------------------------------- *)
(* C10: the submitted type is the toggle state                           *)
(* --------------------------------------------------------------------- *)

(** C10.  However the awaited call settles and whichever button was used,
    `handleSave` makes exactly one create/update call; the record it passes
    has `type` equal to the `itemType` of the render that built the handler
    and agrees with the validated form data on every other key, so the
    form's own `type` value is overridden.  `handleTypeChange(t)` leaves both
    the `itemType` state and the form's `type` field equal to [t]. *)
Theorem submitted_type_is_itemType
    (P : ProductFormProps) (data : obj) (shouldRedirect : bool) (o : outcome)
    (t : value) (w : world) :
  (∃ d,
     omap call_data
       (new_effects w
          (fst (handleSave (capture P (ui w)) data shouldRedirect o w)))
     = [d]
     ∧ d !! "type" = Some (itemType (ui w))
     ∧ ∀ k, k ≠ "type" → d !! k = data !! k)
  ∧ itemType (ui (fst (handleTypeChange t w))) = t
  ∧ form_values (ui (fst (handleTypeChange t w))) !! "type" = Some t.
Proof.
  split; [| split].
  - exists (<["type" := itemType (ui w)]> data).
    split; [| split].
    + destruct o as [| e], shouldRedirect;
        [ rewrite handleSave_redirect_world
        | rewrite handleSave_reset_world
        | rewrite handleSave_rejected_world
        | rewrite handleSave_rejected_world ];
        (erewrite new_effects_app; [| reflexivity]);
        cbn [omap list_omap call_data];
        rewrite request_data; reflexivity.
    + apply lookup_insert_eq.
    + intros k Hk. by apply lookup_insert_ne.
  - reflexivity.
  - run_cmd. apply lookup_insert_eq.
Qed.

(* --------------------------------------------------------------------- *)
(* C8: the Stock tab                                                     *)
(* --------------------------------------------------------------------- *)

Lemma strict_eq_str_true v lit :
  strict_eq_str v lit = true ↔ v = JStr lit.
Proof.
  destruct v; cbn; try (split; [discriminate | intros [=]]).
  rewrite String.eqb_eq. split; [by intros -> | by intros [= ->]].
Qed.

(** C8.  In every rendering, the 'stock' trigger is in the tab list exactly
    when `itemType` is 'product', and so is the 'stock' content; the
    'general' and 'pricing' triggers and contents are there whatever the
    type; and right after `handleTypeChange('service')` the rendering has
    neither the 'stock' trigger nor the 'stock' content. *)
Theorem stock_tab_iff_product (P : ProductFormProps) (s : state) (w : world) :
  ("stock" ∈ v_tab_triggers (render P s) ↔ itemType s = JStr "product")
  ∧ ("stock" ∈ v_tab_contents (render P s) ↔ itemType s = JStr "product")
  ∧ "general" ∈ v_tab_triggers (render P s)
  ∧ "pricing" ∈ v_tab_triggers (render P s)
  ∧ "general" ∈ v_tab_contents (render P s)
  ∧ "pricing" ∈ v_tab_contents (render P s)
  ∧ ("stock" ∉ v_tab_triggers
                 (render P (ui (fst (handleTypeChange (JStr "service") w)))))
  ∧ ("stock" ∉ v_tab_contents
                 (render P (ui (fst (handleTypeChange (JStr "service") w))))).
Proof.
  assert (Hiff : "stock" ∈ (["general"; "pricing"]
                   ++ (if strict_eq_str (itemType s) "product"
                       then ["stock"] else []))
                 ↔ itemType s = JStr "product").
  { rewrite <- strict_eq_str_true.
    destruct (strict_eq_str (itemType s) "product"); cbn.
    - split; [done | intros _; by apply (list_elem_of_lookup_2 _ 2)].
    - split; [| done]. rewrite !elem_of_cons, elem_of_nil.
      intros [[=] | [[=] | []]]. }
  assert (Hservice : "stock" ∉ ["general"; "pricing"]).
  { rewrite !elem_of_cons, elem_of_nil. intros [[=] | [[=] | []]]. }
  cbn [render v_tab_triggers v_tab_contents].
  split; [exact Hiff |]. split; [exact Hiff |].
  split; [by apply (list_elem_of_lookup_2 _ 0) |].
  split; [by apply (list_elem_of_lookup_2 _ 1) |].
  split; [by apply (list_elem_of_lookup_2 _ 0) |].
  split; [by apply (list_elem_of_lookup_2 _ 1) |].
  split; exact Hservice.
Qed.

(* --------------------------------------------------------------------- *)
(* C9: the initial form state                                            *)
(* --------------------------------------------------------------------- *)

(** C9 (as amended).  For each field [k] with documented default [dflt]
    (every field but the date): when a record is supplied and its value for
    [k] is truthy, the initial form value is that value; when the record's
    value for [k] is missing, `undefined` or `null`, or when no record is
    supplied, the initial form value is [dflt].  `opening_stock_date` starts
    as `new Date(v)` for a truthy record value [v] and as `undefined` when no
    record is supplied. *)
Theorem initial_values_from_record_or_defaults
    (P : ProductFormProps) (k : string) (dflt : value) :
  (k, dflt) ∈ plain_defaults →
  (∀ r v, initialData P = Some r → r !! k = Some v → truthy v = true →
     form_values (ui (init P)) !! k = Some v)
  ∧ (∀ r, initialData P = Some r →
       r !! k = None ∨ r !! k = Some JUndefined ∨ r !! k = Some JNull →
       form_values (ui (init P)) !! k = Some dflt)
  ∧ (initialData P = None → form_values (ui (init P)) !! k = Some dflt)
  ∧ (∀ r v, initialData P = Some r →
       r !! "opening_stock_date" = Some v → truthy v = true →
       form_values (ui (init P)) !! "opening_stock_date" = Some (JDate v))
  ∧ (initialData P = None →
       form_values (ui (init P)) !! "opening_stock_date" = Some JUndefined).
Proof.
  intros Hin. cbn [init ui form_values].
  rewrite (defaultValues_lookup _ k dflt Hin), defaultValues_lookup_date.
  unfold opening_stock_date_default, js_or.
  split; [| split; [| split; [| split]]].
  - intros r v -> Hk Hv. cbn [opt_get]. rewrite Hk. simpl.
    by rewrite Hv.
  - intros r -> Hk. cbn [opt_get].
    destruct Hk as [-> | [-> | ->]]; reflexivity.
  - intros ->. reflexivity.
  - intros r v -> Hk Hv. cbn [opt_get]. rewrite Hk. simpl.
    by rewrite Hv.
  - intros ->. reflexivity.
Qed.

(** C9 (as amended) on the sample record and on a creation form: the name
    'Pen' and the unit 'box' are taken over, the `null` description becomes
    the empty string, the date string is wrapped in a Date; without a record
    the unit is 'pcs', the threshold 5, the tax type 'exclusive' and the type
    'product'. *)
Lemma initial_values_from_record_or_defaults_witness :
  form_values (ui (init ex_edit)) !! "name" = Some (JStr "Pen")
  ∧ form_values (ui (init ex_edit)) !! "unit" = Some (JStr "box")
  ∧ form_values (ui (init ex_edit)) !! "description" = Some (JStr "")
  ∧ form_values (ui (init ex_edit)) !! "opening_stock_date"
    = Some (JDate (JStr "2024-04-01"))
  ∧ form_values (ui (init ex_new)) !! "unit" = Some (JStr "pcs")
  ∧ form_values (ui (init ex_new)) !! "low_stock_threshold" = Some (JNum 5)
  ∧ form_values (ui (init ex_new)) !! "tax_type" = Some (JStr "exclusive")
  ∧ form_values (ui (init ex_new)) !! "type" = Some (JStr "product").
Proof.
  split; [| split; [| split; [| split; [| split; [| split; [| split]]]]]].
  - apply (proj1 (initial_values_from_record_or_defaults ex_edit "name"
                    (JStr "") (list_elem_of_lookup_2 plain_defaults 0 _ eq_refl))
             ex_record); reflexivity.
  - apply (proj1 (initial_values_from_record_or_defaults ex_edit "unit"
                    (JStr "pcs") (list_elem_of_lookup_2 plain_defaults 8 _ eq_refl))
             ex_record); reflexivity.
  - apply (proj1 (proj2 (initial_values_from_record_or_defaults ex_edit
                    "description" (JStr "")
                    (list_elem_of_lookup_2 plain_defaults 1 _ eq_refl)))
             ex_record); [reflexivity | right; right; reflexivity].
  - apply (proj1 (proj2 (proj2 (proj2
             (initial_values_from_record_or_defaults ex_edit "name"
                (JStr "") (list_elem_of_lookup_2 plain_defaults 0 _ eq_refl)))))
             ex_record); reflexivity.
  - apply (proj1 (proj2 (proj2 (initial_values_from_record_or_defaults
             ex_new "unit" (JStr "pcs")
             (list_elem_of_lookup_2 plain_defaults 8 _ eq_refl))))); reflexivity.
  - apply (proj1 (proj2 (proj2 (initial_values_from_record_or_defaults
             ex_new "low_stock_threshold" (JNum 5)
             (list_elem_of_lookup_2 plain_defaults 9 _ eq_refl))))); reflexivity.
  - apply (proj1 (proj2 (proj2 (initial_values_from_record_or_defaults
             ex_new "tax_type" (JStr "exclusive")
             (list_elem_of_lookup_2 plain_defaults 14 _ eq_refl))))); reflexivity.
  - apply (proj1 (proj2 (proj2 (initial_values_from_record_or_defaults
             ex_new "type" (JStr "product")
             (list_elem_of_lookup_2 plain_defaults 10 _ eq_refl))))); reflexivity.
Defined.

(** C9 as stated fails on the sample record: its low_stock_threshold 0 shows
    up as 5, its `null` description as the empty string, and its date string
    as a Date object, so these fields do not take the record's value. *)
Lemma initial_values_not_always_record :
  initialData ex_edit = Some ex_record
  ∧ ex_record !! "low_stock_threshold" = Some (JNum 0)
  ∧ form_values (ui (init ex_edit)) !! "low_stock_threshold" = Some (JNum 5)
  ∧ ex_record !! "description" = Some JNull
  ∧ form_values (ui (init ex_edit)) !! "description" = Some (JStr "")
  ∧ ex_record !! "opening_stock_date" = Some (JStr "2024-04-01")
  ∧ form_values (ui (init ex_edit)) !! "opening_stock_date"
    = Some (JDate (JStr "2024-04-01")).
Proof. repeat split; vm_compute; reflexivity. Qed.

(* --------------------------------------------------------------------- *)
(* C6: validation errors block the call and are shown on the field       *)
(* --------------------------------------------------------------------- *)

Lemma required_fields_have_message k :
  k ∈ required_fields → k ∈ message_fields.
Proof.
  unfold required_fields, message_fields.
  rewrite !elem_of_cons, !elem_of_nil. intros [-> | [-> | []]]; auto.
Qed.

Section Validation.

Variable resolver : obj -> resolver_result.
Variable P : ProductFormProps.

Lemma handleSubmit_invalid (onValid : obj -> Cmd) (w : world) :
  r_errors (resolver (form_values (ui w))) ≠ ∅ →
  handleSubmit resolver onValid w
  = ({| ui := with_form (form_values (ui w))
                (r_errors (resolver (form_values (ui w)))) (ui w);
        log := log w;
        inflight := inflight w |}, None).
Proof.
  intros Hne. unfold handleSubmit. cbv zeta.
  destruct (decide (r_errors (resolver (form_values (ui w))) = ∅));
    [done | reflexivity].
Qed.

(** C6.  When the schema reports an error for a required field (one whose
    label carries the asterisk: name, price), a click on Save or on
    'Save & New' makes no create/update call and parks no handler, and,
    the button being enabled, the next rendering shows that field's error
    message in the field's own message slot. *)
Theorem invalid_submission_blocked
    (e : event) (k msg : string) (w : world) :
  e = ClickSave ∨ e = ClickSaveAndNew →
  k ∈ required_fields →
  r_errors (resolver (form_values (ui w))) !! k = Some msg →
  List.filter is_call (new_effects w (step resolver P w e)) = []
  ∧ inflight (step resolver P w e) = inflight w
  ∧ (loading (ui w) = false →
     (k, msg) ∈ v_messages (render P (ui (step resolver P w e)))).
Proof.
  intros He Hk Herr.
  assert (Hne : r_errors (resolver (form_values (ui w))) ≠ ∅).
  { intros Hempty. rewrite Hempty, lookup_empty in Herr. discriminate. }
  assert (Hsame : ∀ w', log w' = log w →
                    List.filter is_call (new_effects w w') = []).
  { intros w' Hlog. rewrite (new_effects_app w w' []); [reflexivity |].
    by rewrite app_nil_r. }
  assert (Hstep : ∃ r, step resolver P w e
                       = if loading (ui w) then w
                         else fst (submit_click resolver P r w)).
  { destruct He as [-> | ->]; [by exists true | by exists false]. }
  destruct Hstep as [r Hstep]. unfold submit_click in Hstep.
  rewrite Hstep. destruct (loading (ui w)) eqn:Hl.
  - split; [by apply Hsame |]. split; [reflexivity | discriminate].
  - rewrite handleSubmit_invalid by done. cbn [fst].
    split; [by apply Hsame |]. split; [reflexivity |].
    intros _. cbn [ui render v_messages with_form form_errors].
    apply list_elem_of_omap. exists k.
    split; [by apply required_fields_have_message |].
    unfold FormMessage. by rewrite Herr.
Qed.

End Validation.

(** C6 on a creation form submitted with the name left empty. *)
Lemma invalid_submission_blocked_witness :
  List.filter is_call
    (new_effects (init ex_new) (step ex_resolver ex_new (init ex_new) ClickSave))
  = []
  ∧ inflight (step ex_resolver ex_new (init ex_new) ClickSave) = []
  ∧ ("name", "Name is required")
    ∈ v_messages
        (render ex_new (ui (step ex_resolver ex_new (init ex_new) ClickSave))).
Proof.
  pose proof (invalid_submission_blocked ex_resolver ex_new ClickSave
                "name" "Name is required" (init ex_new)
                (or_introl eq_refl)
                (list_elem_of_lookup_2 required_fields 0 _ eq_refl)
                eq_refl) as (Hcall & Hpark & Hmsg).
  split; [exact Hcall |]. split; [exact Hpark |]. exact (Hmsg eq_refl).
Defined.

(* --------------------------------------------------------------------- *)
(* C7: one submission in flight at a time                                *)
(* --------------------------------------------------------------------- *)

Lemma handleSave_resume_world env shouldRedirect o w :
  loading (ui (fst (handleSave_resume env shouldRedirect o w))) = false
  ∧ inflight (fst (handleSave_resume env shouldRedirect o w)) = inflight w.
Proof.
  run_cmd.
  destruct (productId_truthy (c_productId env)), o, shouldRedirect;
    split; reflexivity.
Qed.

Section InFlight.

Variable resolver : obj -> resolver_result.
Variable P : ProductFormProps.

Lemma single_flight_init : single_flight (init P).
Proof.
  split; [cbn; lia |]. cbn. split; [discriminate | done].
Qed.

(** A submitting click on an idle form either parks nothing (validation
    failed) and leaves the flag down, or parks one handler and raises
    it. *)
Lemma submit_click_flight (shouldRedirect : bool) (w : world) :
  loading (ui w) = false → inflight w = [] →
  single_flight (fst (submit_click resolver P shouldRedirect w)).
Proof.
  intros Hl Hin. unfold single_flight, submit_click, handleSubmit. cbv zeta.
  destruct (decide (r_errors (resolver (form_values (ui w))) = ∅)).
  - cbv [seq modify]. cbn [ui log inflight].
    rewrite handleSave_begin_world. cbv [suspend]. cbn [fst ui inflight].
    rewrite Hin. split; [cbn; lia |]. cbn. split; [discriminate | done].
  - cbv [modify]. cbn [fst ui inflight with_form loading].
    rewrite Hin, Hl. split; [cbn; lia |]. split; [discriminate | done].
Qed.

Lemma single_flight_idle (w : world) :
  single_flight w → loading (ui w) = false → inflight w = [].
Proof.
  intros [_ Hiff] Hl. destruct (inflight w) as [| k l]; [done |].
  assert (loading (ui w) = true) by (by apply Hiff). congruence.
Qed.

Lemma single_flight_settle (i : nat) (k : suspended) (w : world) :
  single_flight w → inflight w !! i = Some k → inflight w = [k] ∧ i = 0.
Proof.
  intros [Hlen _] Hk. destruct (inflight w) as [| k0 [| k1 l]].
  - by rewrite lookup_nil in Hk.
  - destruct i; [by injection Hk as -> | by rewrite lookup_cons, lookup_nil in Hk].
  - cbn in Hlen. lia.
Qed.

Lemma single_flight_step (w : world) (e : event) :
  single_flight w → single_flight (step resolver P w e).
Proof.
  intros Hw. destruct e as [| | | | | | k x | i o];
    cbn [step render v_save_disabled v_save_and_new_disabled v_fields].
  - destruct (loading (ui w)) eqn:Hl; [done |].
    apply submit_click_flight; [done | by apply single_flight_idle].
  - destruct (loading (ui w)) eqn:Hl; [done |].
    apply submit_click_flight; [done | by apply single_flight_idle].
  - exact Hw.
  - exact Hw.
  - exact Hw.
  - exact Hw.
  - case_decide; exact Hw.
  - destruct (inflight w !! i) as [k |] eqn:Hk; [| done].
    destruct (single_flight_settle i k w Hw Hk) as [Hin ->].
    cbv [seq resume_at].
    destruct (handleSave_resume_world (s_env k) (s_redirect k) o
                {| ui := ui w; log := log w;
                   inflight := delete 0 (inflight w) |}) as [Hl Hi].
    cbn [inflight] in Hi. unfold single_flight.
    rewrite Hl, Hi, Hin. cbn.
    split; [lia |]. split; [discriminate | done].
Qed.

Lemma single_flight_run (es : list event) (w : world) :
  single_flight w → single_flight (run resolver P w es).
Proof.
  revert w. induction es as [| e es IH]; intros w Hw; [exact Hw |].
  cbn [run foldl]. apply IH. by apply single_flight_step.
Qed.

(** C7.  In every state the component can reach: at most one `handleSave`
    is waiting on its create/update call; `loading` is true exactly while
    one is; both the Save and the 'Save & New' button are disabled exactly
    when `loading` is true; while a call is pending, a click on either
    button changes nothing, so no second submission starts; and when the
    pending call settles, by success or by failure, `loading` is false
    again and nothing is pending. *)
Theorem no_concurrent_submits (w : world) :
  reachable resolver P w →
  (length (inflight w) ≤ 1)%nat
  ∧ (loading (ui w) = true ↔ inflight w ≠ [])
  ∧ v_save_disabled (render P (ui w)) = loading (ui w)
  ∧ v_save_and_new_disabled (render P (ui w)) = loading (ui w)
  ∧ (inflight w ≠ [] →
     step resolver P w ClickSave = w
     ∧ step resolver P w ClickSaveAndNew = w)
  ∧ (∀ i k o, inflight w !! i = Some k →
       loading (ui (step resolver P w (Settle i o))) = false
       ∧ inflight (step resolver P w (Settle i o)) = []).
Proof.
  intros [es ->].
  pose proof (single_flight_run es (init P) single_flight_init) as Hw.
  set (w := run resolver P (init P) es) in *.
  split; [apply Hw |]. split; [apply Hw |].
  split; [reflexivity |]. split; [reflexivity |]. split.
  - intros Hne. apply Hw in Hne.
    cbn [step render v_save_disabled v_save_and_new_disabled].
    by rewrite Hne.
  - intros i k o Hk.
    pose proof (single_flight_step w (Settle i o) Hw) as [_ Hiff].
    destruct (single_flight_settle i k w Hw Hk) as [Hin ->].
    cbn [step] in *. rewrite Hk in *. cbv [seq resume_at] in *.
    destruct (handleSave_resume_world (s_env k) (s_redirect k) o
                {| ui := ui w; log := log w;
                   inflight := delete 0 (inflight w) |}) as [Hl Hi].
    cbn [inflight] in Hi.
    split; [exact Hl |]. rewrite Hi, Hin. reflexivity.
Qed.

End InFlight.

(** C7 on a creation form after a name was typed and Save clicked: the
    request is out, the flag is up, and the buttons are disabled. *)
Lemma no_concurrent_submits_witness :
  let w := run ex_resolver ex_new (init ex_new)
             [Change "name" (JStr "Ink"); ClickSave] in
  length (inflight w) = 1
  ∧ loading (ui w) = true
  ∧ v_save_disabled (render ex_new (ui w)) = true
  ∧ v_save_and_new_disabled (render ex_new (ui w)) = true
  ∧ step ex_resolver ex_new w ClickSave = w
  ∧ step ex_resolver ex_new w ClickSaveAndNew = w
  ∧ loading (ui (step ex_resolver ex_new w (Settle 0 (Rejected ex_error))))
    = false
  ∧ loading (ui (step ex_resolver ex_new w (Settle 0 Resolved))) = false.
Proof.
  cbv zeta.
  pose proof (no_concurrent_submits ex_resolver ex_new
                (run ex_resolver ex_new (init ex_new)
                   [Change "name" (JStr "Ink"); ClickSave])
                (ex_intro _ [Change "name" (JStr "Ink"); ClickSave] eq_refl))
    as (_ & Hiff & Hs & Hn & Hclick & Hsettle).
  assert (Hne : inflight (run ex_resolver ex_new (init ex_new)
                            [Change "name" (JStr "Ink"); ClickSave]) ≠ [])
    by (vm_compute; discriminate).
  split; [vm_compute; reflexivity |].
  split; [by apply Hiff |].
  split; [rewrite Hs; by apply Hiff |].
  split; [rewrite Hn; by apply Hiff |].
  split; [by apply Hclick |].
  split; [by apply Hclick |].
  destruct (inflight (run ex_resolver ex_new (init ex_new)
                        [Change "name" (JStr "Ink"); ClickSave]) !! 0)
    as [k |] eqn:Hk; [| vm_compute in Hk; discriminate].
  split.
  - exact (proj1 (Hsettle 0 k (Rejected ex_error) Hk)).
  - exact (proj1 (Hsettle 0 k Resolved Hk)).
Defined.

(* --------------------------------------------------------------------- *)
(* The form's `type` field follows the toggle in every reachable state   *)
(* --------------------------------------------------------------------- *)

Lemma type_not_a_field (wholesale : bool) (stock : bool) :
  "type" ∉ general_fields ++ pricing_fields wholesale
           ++ (if stock then stock_fields else []).
Proof.
  unfold general_fields, pricing_fields, stock_fields.
  destruct wholesale, stock; cbn;
    rewrite !elem_of_cons, elem_of_nil; intros H;
    repeat (destruct H as [[=] | H]); done.
Qed.

Section TypeInSync.

Variable resolver : obj -> resolver_result.
Variable P : ProductFormProps.

Lemma type_in_sync_init : type_in_sync (init P).
Proof.
  unfold type_in_sync. cbn [init ui form_values itemType].
  apply (defaultValues_lookup _ "type" (JStr "product")).
  by apply (list_elem_of_lookup_2 plain_defaults 10).
Qed.

Lemma type_in_sync_step (w : world) (e : event) :
  type_in_sync w → type_in_sync (step resolver P w e).
Proof.
  unfold type_in_sync. intros Hw.
  destruct e as [| | | | | | k x | i o];
    cbn [step render v_save_disabled v_save_and_new_disabled v_fields].
  - destruct (loading (ui w)); [done |].
    unfold submit_click, handleSubmit. cbv zeta. case_decide.
    + cbv [seq modify]. cbn [ui log inflight].
      by rewrite handleSave_begin_world.
    + done.
  - destruct (loading (ui w)); [done |].
    unfold submit_click, handleSubmit. cbv zeta. case_decide.
    + cbv [seq modify]. cbn [ui log inflight].
      by rewrite handleSave_begin_world.
    + done.
  - run_cmd. apply lookup_insert_eq.
  - run_cmd. apply lookup_insert_eq.
  - done.
  - done.
  - case_decide as Hk; [| done]. run_cmd.
    rewrite lookup_insert_ne; [done |].
    intros ->. by apply type_not_a_field in Hk.
  - destruct (inflight w !! i) as [k |]; [| done].
    run_cmd.
    destruct (productId_truthy (c_productId (s_env k))), o, (s_redirect k);
      cbn [fst ui form_values itemType]; try done;
      apply lookup_insert_eq.
Qed.

(** X11.  In every reachable state the form's `type` field equals the
    `itemType` state. *)
Lemma type_field_follows_toggle (w : world) :
  reachable resolver P w → type_in_sync w.
Proof.
  intros [es ->]. generalize (init P) type_in_sync_init.
  induction es as [| e es IH]; intros w Hw; [exact Hw |].
  cbn [run foldl]. apply IH. by apply type_in_sync_step.
Qed.

End TypeInSync.

(* ===================================================================== *)
(* Further properties of the handlers                                    *)
(* ===================================================================== *)

Lemma in_new_effects (w w' : world) (l : list effect) (x : effect) :
  log w' = log w ++ l → (x ∈ new_effects w w' ↔ x ∈ l).
Proof. intros Hlog. by rewrite (new_effects_app w w' l Hlog). Qed.

Lemma request_cases env data :
  (∃ id d, request env data = UpdateProduct id d)
  ∨ (∃ d, request env data = CreateProduct d).
Proof.
  unfold request. destruct (productId_truthy _); [left | right]; eauto.
Qed.

Ltac request_absurd H :=
  match type of H with
  | _ = request ?env ?data =>
      destruct (request_cases env data) as [(? & ? & Hreq) | (? & Hreq)];
      rewrite Hreq in H; discriminate H
  end.

Ltac elem_cases H :=
  repeat (apply elem_of_cons in H as [H | H]; try discriminate H;
          try request_absurd H);
  try (by apply elem_of_nil in H).

(** X1.  Which path of `handleSave` does what: `router.refresh()` is called
    exactly when the call succeeded, `router.push` exactly when it succeeded
    on the primary Save path, and `form.reset` exactly when it succeeded on
    the 'Save & New' path. *)
Theorem handleSave_paths
    (env : closure) (data : obj) (shouldRedirect : bool) (o : outcome)
    (w : world) :
  (RouterRefresh
     ∈ new_effects w (fst (handleSave env data shouldRedirect o w))
   ↔ o = Resolved)
  ∧ ((∃ path, RouterPush path
        ∈ new_effects w (fst (handleSave env data shouldRedirect o w)))
     ↔ o = Resolved ∧ shouldRedirect = true)
  ∧ ((∃ vals, FormReset vals
        ∈ new_effects w (fst (handleSave env data shouldRedirect o w)))
     ↔ o = Resolved ∧ shouldRedirect = false).
Proof.
  destruct o as [| e], shouldRedirect;
    [ rewrite handleSave_redirect_world
    | rewrite handleSave_reset_world
    | rewrite handleSave_rejected_world
    | rewrite handleSave_rejected_world ];
    cbn [fst];
    (split; [| split]);
    (split;
     [ try (intros H; rewrite in_new_effects in H by reflexivity;
            elem_cases H; done);
       try (intros [x H]; rewrite in_new_effects in H by reflexivity;
            elem_cases H; done)
     | try (intros [? ?]; discriminate); try discriminate;
       intros _; try eexists; rewrite in_new_effects by reflexivity ]).
  - by apply (list_elem_of_lookup_2 _ 3).
  - by apply (list_elem_of_lookup_2 _ 4).
  - by apply (list_elem_of_lookup_2 _ 3).
  - by apply (list_elem_of_lookup_2 _ 4).
Qed.

(** X2.  The heading and the action agree: the form is headed 'Edit Item' exactly
    when a submission calls `updateProduct`, and 'Add Item' exactly when it
    calls `createProduct`, whatever the data and however the call settles. *)
Theorem title_matches_action
    (P : ProductFormProps) (data : obj) (shouldRedirect : bool) (o : outcome)
    (w : world) :
  (v_title (render P (ui w)) = "Edit Item"
   ↔ ∃ id d, UpdateProduct id d
       ∈ new_effects w
           (fst (handleSave (capture P (ui w)) data shouldRedirect o w)))
  ∧ (v_title (render P (ui w)) = "Add Item"
     ↔ ∃ d, CreateProduct d
         ∈ new_effects w
             (fst (handleSave (capture P (ui w)) data shouldRedirect o w))).
Proof.
  assert (Hin : ∀ x, x ∈ new_effects w
                  (fst (handleSave (capture P (ui w)) data shouldRedirect o w))
                → is_call x = true
                → x = request (capture P (ui w)) data).
  { intros x Hx Hcall.
    destruct o as [| e], shouldRedirect;
      [ rewrite handleSave_redirect_world in Hx
      | rewrite handleSave_reset_world in Hx
      | rewrite handleSave_rejected_world in Hx
      | rewrite handleSave_rejected_world in Hx ];
      cbn [fst] in Hx; rewrite in_new_effects in Hx by reflexivity;
      repeat (apply elem_of_cons in Hx as [Hx | Hx];
              [first [exact Hx | subst x; discriminate Hcall] |]);
      by apply elem_of_nil in Hx. }
  assert (Hreq : request (capture P (ui w)) data
                 ∈ new_effects w
                     (fst (handleSave (capture P (ui w)) data shouldRedirect
                             o w))).
  { destruct o as [| e], shouldRedirect;
      [ rewrite handleSave_redirect_world
      | rewrite handleSave_reset_world
      | rewrite handleSave_rejected_world
      | rewrite handleSave_rejected_world ];
      cbn [fst]; rewrite in_new_effects by reflexivity;
      by apply (list_elem_of_lookup_2 _ 1). }
  revert Hin Hreq. unfold request. cbn [render v_title capture c_productId].
  destruct (productId_truthy (productId P)) as [id |]; intros Hin Hreq; split.
  - split; [intros _; eauto | done].
  - split; [discriminate |].
    intros [d Hd]. apply Hin in Hd; [discriminate Hd | reflexivity].
  - split; [discriminate |].
    intros (id & d & Hd). apply Hin in Hd; [discriminate Hd | reflexivity].
  - split; [intros _; eauto | done].
Qed.

Lemma js_or_truthy (a b : value) :
  truthy (js_or a b) = truthy a || truthy b.
Proof. unfold js_or. by destruct (truthy a) eqn:Ha; rewrite ?Ha. Qed.

(** X3.  The error notification is never blank: whatever Error the failed call
    throws (message missing, `null`, empty, or not even a string), every
    `toast.error` made by `handleSave` carries a truthy value. *)
Theorem error_toast_never_blank
    (env : closure) (data : obj) (shouldRedirect : bool) (e : error)
    (w : world) (m : value) :
  ToastError m
    ∈ new_effects w (fst (handleSave env data shouldRedirect (Rejected e) w)) →
  truthy m = true.
Proof.
  rewrite handleSave_rejected_world. cbn [fst].
  rewrite in_new_effects by reflexivity. intros H.
  apply elem_of_cons in H as [H | H]; [discriminate H |].
  apply elem_of_cons in H as [H | H]; [request_absurd H |].
  apply elem_of_cons in H as [H | H].
  - injection H as ->. rewrite js_or_truthy.
    destruct (truthy (message e)); reflexivity.
  - elem_cases H.
Qed.

(** An Error without a message: the notification falls back to the fixed
    text. *)
Lemma error_toast_never_blank_witness :
  ToastError (JStr "Something went wrong")
    ∈ new_effects (init ex_new)
        (fst (handleSave (capture ex_new (ui (init ex_new))) ex_data true
                (Rejected {| message := JUndefined |}) (init ex_new)))
  ∧ truthy (JStr "Something went wrong") = true.
Proof.
  assert (H : ToastError (JStr "Something went wrong")
                ∈ new_effects (init ex_new)
                    (fst (handleSave (capture ex_new (ui (init ex_new)))
                            ex_data true
                            (Rejected {| message := JUndefined |})
                            (init ex_new)))).
  { rewrite handleSave_rejected_world. cbn [fst].
    rewrite in_new_effects by reflexivity.
    by apply (list_elem_of_lookup_2 _ 2). }
  split; [exact H |].
  exact (error_toast_never_blank _ _ _ _ _ _ H).
Defined.

(* --------------------------------------------------------------------- *)
(* handleTypeChange                                                      *)
(* --------------------------------------------------------------------- *)

(** X4.  Toggling the item type touches the `type` key only: every other form
    value, the field errors, the flags and the parked handlers stay as they
    are; toggling to the same type twice is the same as once. *)
Theorem handleTypeChange_frame (t : value) (w : world) :
  (∀ k, k ≠ "type" →
     form_values (ui (fst (handleTypeChange t w))) !! k
     = form_values (ui w) !! k)
  ∧ form_errors (ui (fst (handleTypeChange t w))) = form_errors (ui w)
  ∧ loading (ui (fst (handleTypeChange t w))) = loading (ui w)
  ∧ showWholesale (ui (fst (handleTypeChange t w))) = showWholesale (ui w)
  ∧ inflight (fst (handleTypeChange t w)) = inflight w
  ∧ ui (fst (handleTypeChange t (fst (handleTypeChange t w))))
    = ui (fst (handleTypeChange t w)).
Proof.
  run_cmd. split; [| repeat split].
  - intros k Hk. by rewrite lookup_insert_ne.
  - by rewrite insert_insert_eq.
Qed.

(** X5.  Switching the type away and back loses nothing: from a state whose
    `type` field agrees with the toggle, `handleTypeChange(t)` followed by
    `handleTypeChange` of the original type restores all the hooks. *)
Theorem handleTypeChange_round_trip (t : value) (w : world) :
  type_in_sync w →
  ui (fst (handleTypeChange (itemType (ui w))
             (fst (handleTypeChange t w))))
  = ui w.
Proof.
  unfold type_in_sync. intros Hsync. run_cmd.
  rewrite insert_insert_eq, (insert_id _ _ _ Hsync).
  by destruct (ui w).
Qed.

(** A new item switched to 'service' and back to 'product'. *)
Lemma handleTypeChange_round_trip_witness :
  ui (fst (handleTypeChange (JStr "product")
             (fst (handleTypeChange (JStr "service") (init ex_new)))))
  = ui (init ex_new).
Proof.
  apply (handleTypeChange_round_trip (JStr "service") (init ex_new)).
  vm_compute. reflexivity.
Defined.

(* --------------------------------------------------------------------- *)
(* defaultValues                                                         *)
(* --------------------------------------------------------------------- *)

Lemma defaultValues_dom (init : option obj) :
  dom (defaultValues init) = list_to_set form_keys.
Proof.
  unfold defaultValues. rewrite dom_list_to_map_L. reflexivity.
Qed.

(** X6.  The initial form has exactly the twenty keys of the literal, whatever
    record is supplied: a key is present iff it is one of them, so any other
    property of the record (an id, timestamps, ...) never enters the form. *)
Theorem defaultValues_keys (init : option obj) (k : string) :
  (is_Some (defaultValues init !! k) ↔ k ∈ form_keys)
  ∧ (k ∉ form_keys → defaultValues init !! k = None)
  ∧ size (defaultValues init) = 20.
Proof.
  assert (Hk : is_Some (defaultValues init !! k) ↔ k ∈ form_keys).
  { rewrite <- elem_of_dom, defaultValues_dom. apply elem_of_list_to_set. }
  split; [exact Hk |]. split.
  - intros Hnot. apply eq_None_not_Some. by rewrite Hk.
  - rewrite <- size_dom, defaultValues_dom.
    rewrite size_list_to_set; [reflexivity |]. compute_done.
Qed.

(** The record of the sample edit form has an `id`; the form does not. *)
Lemma defaultValues_keys_witness :
  opt_get (initialData ex_wholesale) "id" = JStr "row-7"
  ∧ defaultValues (initialData ex_wholesale) !! "id" = None.
Proof.
  split; [reflexivity |].
  apply (proj1 (proj2 (defaultValues_keys (initialData ex_wholesale) "id"))).
  compute_done.
Defined.

(** X7.  Every field but `wholesale_price` and `opening_stock_date` starts with
    a defined value: whatever the record holds (nothing, `null`, `NaN`, ...),
    the initial form value is never `undefined`, `null` or `NaN`. *)
Theorem defaultValues_defined
    (init : option obj) (k : string) (dflt : value) :
  (k, dflt) ∈ plain_defaults → k ≠ "wholesale_price" →
  ∃ v, defaultValues init !! k = Some v
       ∧ v ≠ JUndefined ∧ v ≠ JNull ∧ v ≠ JNaN.
Proof.
  intros Hin Hk. rewrite (defaultValues_lookup init k dflt Hin).
  eexists; split; [reflexivity |].
  unfold js_or. destruct (truthy (opt_get init k)) eqn:Ht.
  - repeat split; intros Heq; rewrite Heq in Ht; discriminate Ht.
  - unfold plain_defaults in Hin.
    repeat (apply elem_of_cons in Hin as [Hin | Hin];
            [injection Hin as -> ->; try done; repeat split; discriminate |]).
    by apply elem_of_nil in Hin.
Qed.

(** A record whose price is `NaN`: the form starts from a defined price. *)
Lemma defaultValues_defined_witness :
  ∃ v, defaultValues (Some {[ "price" := JNaN ]}) !! "price" = Some v
       ∧ v ≠ JUndefined ∧ v ≠ JNull ∧ v ≠ JNaN.
Proof.
  apply (defaultValues_defined (Some {[ "price" := JNaN ]}) "price" (JNum 0)).
  - by apply (list_elem_of_lookup_2 plain_defaults 4).
  - discriminate.
Defined.

(* --------------------------------------------------------------------- *)
(* The wholesale field and the toggle buttons                            *)
(* --------------------------------------------------------------------- *)

(** X8.  The wholesale price field is mounted exactly when `showWholesale` is
    true, and the toggle that shows or hides it leaves the form values alone
    and undoes itself when clicked twice. *)
Theorem wholesale_toggle
    (resolver : obj -> resolver_result) (P : ProductFormProps) (w : world) :
  ("wholesale_price" ∈ v_fields (render P (ui w))
   ↔ showWholesale (ui w) = true)
  ∧ form_values (ui (step resolver P w ClickWholesale)) = form_values (ui w)
  ∧ ui (step resolver P (step resolver P w ClickWholesale) ClickWholesale)
    = ui w.
Proof.
  split; [| split].
  - cbn [render v_fields]. unfold general_fields, pricing_fields, stock_fields.
    destruct (showWholesale (ui w)),
             (strict_eq_str (itemType (ui w)) "product"); cbn.
    + split; [done | intros _; by apply (list_elem_of_lookup_2 _ 10)].
    + split; [done | intros _; by apply (list_elem_of_lookup_2 _ 10)].
    + split; [| done]. intros H. elem_cases H.
    + split; [| done]. intros H. elem_cases H.
  - reflexivity.
  - cbn [step]. run_cmd. rewrite negb_involutive. by destruct (ui w).
Qed.

(** X9.  A form opened on a record with a wholesale price starts with that price
    among its values but with the wholesale field not mounted. *)
Theorem wholesale_price_starts_hidden
    (P : ProductFormProps) (r : obj) (v : value) :
  initialData P = Some r → r !! "wholesale_price" = Some v →
  truthy v = true →
  form_values (ui (init P)) !! "wholesale_price" = Some v
  ∧ "wholesale_price" ∉ v_fields (render P (ui (init P))).
Proof.
  intros Hr Hv Ht. split.
  - cbn [init ui form_values].
    rewrite (defaultValues_lookup _ "wholesale_price" JUndefined)
      by (by apply (list_elem_of_lookup_2 plain_defaults 18)).
    rewrite Hr. cbn [opt_get]. rewrite Hv. unfold js_or. simpl.
    by rewrite Ht.
  - cbn [init ui render v_fields showWholesale].
    unfold general_fields, pricing_fields, stock_fields.
    destruct (strict_eq_str _ "product"); cbn; intros H; elem_cases H.
Qed.

Lemma wholesale_price_starts_hidden_witness :
  form_values (ui (init ex_wholesale)) !! "wholesale_price" = Some (JNum 40)
  ∧ "wholesale_price" ∉ v_fields (render ex_wholesale (ui (init ex_wholesale))).
Proof.
  apply (wholesale_price_starts_hidden ex_wholesale
           (list_to_map [ ("name", JStr "Rice"); ("wholesale_price", JNum 40);
                          ("id", JStr "row-7") ]) (JNum 40));
    reflexivity.
Defined.

(** X10.  The two toggle buttons are never both highlighted; the Product button is
    highlighted exactly when the Stock tab is shown; and when `itemType` is
    one of the two declared values exactly one button is highlighted. *)
Theorem toggle_buttons (P : ProductFormProps) (s : state) :
  ¬ (product_button_variant s = "default"
     ∧ service_button_variant s = "default")
  ∧ (product_button_variant s = "default"
     ↔ "stock" ∈ v_tab_triggers (render P s))
  ∧ (is_item_type (itemType s) →
     (product_button_variant s = "default"
      ∧ service_button_variant s = "ghost")
     ∨ (product_button_variant s = "ghost"
        ∧ service_button_variant s = "default")).
Proof.
  unfold product_button_variant, service_button_variant, is_item_type.
  cbn [render v_tab_triggers].
  split; [| split].
  - destruct (strict_eq_str (itemType s) "product") eqn:Hp; [| intros [[=] _]].
    apply strict_eq_str_true in Hp. rewrite Hp. intros [_ [=]].
  - destruct (strict_eq_str (itemType s) "product"); cbn.
    + split; [intros _; by apply (list_elem_of_lookup_2 _ 2) | done].
    + split; [discriminate | intros H; elem_cases H].
  - intros [-> | ->]; [left | right]; split; reflexivity.
Qed.

Lemma toggle_buttons_witness :
  (product_button_variant (ui (init ex_new)) = "default"
   ∧ service_button_variant (ui (init ex_new)) = "ghost")
  ∨ (product_button_variant (ui (init ex_new)) = "ghost"
     ∧ service_button_variant (ui (init ex_new)) = "default").
Proof.
  apply (proj2 (proj2 (toggle_buttons ex_new (ui (init ex_new))))).
  left. reflexivity.
Defined.

(* ===================================================================== *)
(* Further invariants of the component                                   *)
(* ===================================================================== *)

Lemma handleSave_resume_effects env shouldRedirect o w :
  ∃ l, log (fst (handleSave_resume env shouldRedirect o w)) = log w ++ l
       ∧ List.filter is_call l = []
       ∧ length (List.filter is_toast l) = 1.
Proof.
  run_cmd.
  destruct (productId_truthy (c_productId env)), o, shouldRedirect;
    cbn [fst log]; norm_log; eexists; (split; [reflexivity |]);
    split; reflexivity.
Qed.

Lemma calls_made_app (w w' : world) (l : list effect) :
  log w' = log w ++ l →
  calls_made w' = calls_made w + length (List.filter is_call l).
Proof.
  unfold calls_made. intros ->. by rewrite List.filter_app, length_app.
Qed.

Lemma toasts_shown_app (w w' : world) (l : list effect) :
  log w' = log w ++ l →
  toasts_shown w' = toasts_shown w + length (List.filter is_toast l).
Proof.
  unfold toasts_shown. intros ->. by rewrite List.filter_app, length_app.
Qed.

Section Accounting.

Variable resolver : obj -> resolver_result.
Variable P : ProductFormProps.

(** What one turn of the event loop adds to the log: the calls it makes are
    the request of the current render, and the calls and notifications it
    adds balance against the handlers it parks or resumes. *)
Lemma step_effects (w : world) (e : event) :
  ∃ l, log (step resolver P w e) = log w ++ l
       ∧ length (List.filter is_call l) + length (inflight w)
         = length (List.filter is_toast l)
           + length (inflight (step resolver P w e))
       ∧ ∀ c, c ∈ l → is_call c = true →
           ∃ d, c = request (capture P (ui w)) d.
Proof.
  assert (Hidle : ∃ l, log w = log w ++ l
            ∧ length (List.filter is_call l) + length (inflight w)
              = length (List.filter is_toast l) + length (inflight w)
            ∧ ∀ c, c ∈ l → is_call c = true →
                ∃ d, c = request (capture P (ui w)) d).
  { exists []. rewrite app_nil_r. split; [done |]. split; [done |].
    intros c Hc. by apply elem_of_nil in Hc. }
  assert (Hsubmit : ∀ r,
            ∃ l, log (fst (submit_click resolver P r w)) = log w ++ l
            ∧ length (List.filter is_call l) + length (inflight w)
              = length (List.filter is_toast l)
                + length (inflight (fst (submit_click resolver P r w)))
            ∧ ∀ c, c ∈ l → is_call c = true →
                ∃ d, c = request (capture P (ui w)) d).
  { intros r. unfold submit_click, handleSubmit. cbv zeta. case_decide.
    - cbv [seq modify]. cbn [ui log inflight].
      rewrite handleSave_begin_world. cbv [suspend]. cbn [fst log inflight].
      eexists. split; [reflexivity |]. split.
      + cbn [List.filter is_call is_toast]. rewrite request_is_call.
        destruct (request_cases (capture P (ui w))
                    (r_values (resolver (form_values (ui w)))))
          as [(? & ? & ->) | (? & ->)];
          cbn; rewrite length_app; cbn; lia.
      + intros c Hc Hcall.
        apply elem_of_cons in Hc as [-> | Hc]; [discriminate Hcall |].
        apply elem_of_cons in Hc as [-> | Hc]; [eauto |].
        by apply elem_of_nil in Hc.
    - cbv [modify]. cbn [fst log inflight]. exact Hidle. }
  destruct e as [| | | | | | k x | i o];
    cbn [step render v_save_disabled v_save_and_new_disabled v_fields].
  - destruct (loading (ui w)); [exact Hidle | apply Hsubmit].
  - destruct (loading (ui w)); [exact Hidle | apply Hsubmit].
  - run_cmd. norm_log. eexists. split; [reflexivity |]. split; [done |].
    intros c Hc Hcall. elem_cases Hc; subst c; discriminate Hcall.
  - run_cmd. norm_log. eexists. split; [reflexivity |]. split; [done |].
    intros c Hc Hcall. elem_cases Hc; subst c; discriminate Hcall.
  - exact Hidle.
  - run_cmd. eexists. split; [reflexivity |]. split; [done |].
    intros c Hc Hcall. elem_cases Hc; subst c; discriminate Hcall.
  - case_decide; exact Hidle.
  - destruct (inflight w !! i) as [k |] eqn:Hk; [| exact Hidle].
    cbv [seq resume_at].
    destruct (handleSave_resume_effects (s_env k) (s_redirect k) o
                {| ui := ui w; log := log w;
                   inflight := delete i (inflight w) |})
      as (l & Hlog & Hcalls & Htoasts).
    destruct (handleSave_resume_world (s_env k) (s_redirect k) o
                {| ui := ui w; log := log w;
                   inflight := delete i (inflight w) |}) as [_ Hin].
    cbn [log inflight] in Hlog, Hin.
    exists l. split; [exact Hlog |]. split.
    + rewrite Hcalls, Htoasts, Hin, length_delete by eauto.
      apply lookup_lt_Some in Hk. cbn. lia.
    + intros c Hc Hcall.
      assert (Hf : c ∈ List.filter is_call l).
      { apply list_elem_of_In, List.filter_In.
        by rewrite <- list_elem_of_In. }
      rewrite Hcalls in Hf. by apply elem_of_nil in Hf.
Qed.

(** X12.  Every call is answered by exactly one notification once it settles: in
    every reachable state the number of create/update calls made equals the
    number of notifications shown plus the number of calls still pending. *)
Theorem one_toast_per_settled_call (w : world) :
  reachable resolver P w →
  calls_made w = toasts_shown w + length (inflight w).
Proof.
  intros [es ->].
  assert (Hinit : calls_made (init P)
                  = toasts_shown (init P) + length (inflight (init P)))
    by reflexivity.
  revert Hinit. generalize (init P).
  induction es as [| e es IH]; intros w Hw; [exact Hw |].
  cbn [run foldl]. apply IH.
  destruct (step_effects w e) as (l & Hlog & Hbal & _).
  rewrite (calls_made_app _ _ _ Hlog), (toasts_shown_app _ _ _ Hlog). lia.
Qed.

(** X13.  An edit form only ever updates its own item, and a creation form only
    ever creates: in every reachable state, each call in the log is
    `updateProduct(productId, ...)` when a non-empty productId was supplied,
    and `createProduct(...)` when none was, however many times the form was
    submitted (after 'Save & New' included). *)
Theorem calls_follow_productId (w : world) (c : effect) :
  reachable resolver P w → c ∈ log w → is_call c = true →
  (∀ id, productId P = Some id → id ≠ "" → ∃ d, c = UpdateProduct id d)
  ∧ (productId P = None → ∃ d, c = CreateProduct d).
Proof.
  intros [es ->]. revert c.
  assert (Hinit : ∀ c, c ∈ log (init P) → is_call c = true →
            ∃ d, c = request (capture P (ui (init P))) d).
  { intros c Hc. by apply elem_of_nil in Hc. }
  assert (Hreq : ∀ w c, (∃ d, c = request (capture P (ui w)) d) →
            (∀ id, productId P = Some id → id ≠ "" →
               ∃ d, c = UpdateProduct id d)
            ∧ (productId P = None → ∃ d, c = CreateProduct d)).
  { intros w c [d ->]. unfold request. cbn [capture c_productId c_itemType].
    split.
    - intros id -> Hid. rewrite (productId_truthy_Some id Hid). eauto.
    - intros ->. cbn. eauto. }
  assert (Hrun : ∀ es w,
            (∀ c, c ∈ log w → is_call c = true →
               ∃ w0 d, c = request (capture P (ui w0)) d) →
            ∀ c, c ∈ log (run resolver P w es) → is_call c = true →
              ∃ w0 d, c = request (capture P (ui w0)) d).
  { clear es. induction es as [| e es IH]; intros w Hw; [exact Hw |].
    cbn [run foldl]. apply IH. intros c Hc Hcall.
    destruct (step_effects w e) as (l & Hlog & _ & Hl).
    rewrite Hlog in Hc. apply elem_of_app in Hc as [Hc | Hc].
    - by apply Hw.
    - exists w. by apply Hl. }
  intros c Hc Hcall.
  destruct (Hrun es (init P)) with (c := c) as (w0 & d & Hd);
    [| done | done | apply (Hreq w0); eauto].
  intros c0 Hc0. by apply elem_of_nil in Hc0.
Qed.

End Accounting.

(** A form submitted, failed, and submitted again with 'Save & New': two
    calls, one notification, one call pending. *)
Lemma one_toast_per_settled_call_witness :
  let w := run ex_resolver ex_new (init ex_new)
             [Change "name" (JStr "Ink"); ClickSave;
              Settle 0 (Rejected ex_error); ClickSaveAndNew] in
  reachable ex_resolver ex_new w
  ∧ calls_made w = toasts_shown w + length (inflight w).
Proof.
  cbv zeta.
  assert (Hr : reachable ex_resolver ex_new
                 (run ex_resolver ex_new (init ex_new)
                    [Change "name" (JStr "Ink"); ClickSave;
                     Settle 0 (Rejected ex_error); ClickSaveAndNew]))
    by (eexists; reflexivity).
  split; [exact Hr |].
  exact (one_toast_per_settled_call ex_resolver ex_new _ Hr).
Defined.

(** The sample edit form after 'Save & New' has resolved and Save was
    clicked again: the call it made first is an update of "p1". *)
Lemma calls_follow_productId_witness :
  let w := run ex_resolver ex_edit (init ex_edit)
             [ClickSaveAndNew; Settle 0 Resolved; ClickSave] in
  let c := request (capture ex_edit (ui (init ex_edit)))
             (form_values (ui (init ex_edit))) in
  c ∈ log w ∧ ∃ d, c = UpdateProduct "p1" d.
Proof.
  cbv zeta.
  assert (Hc : request (capture ex_edit (ui (init ex_edit)))
                 (form_values (ui (init ex_edit)))
               ∈ log (run ex_resolver ex_edit (init ex_edit)
                        [ClickSaveAndNew; Settle 0 Resolved; ClickSave])).
  { apply (list_elem_of_lookup_2 _ 1). vm_compute. reflexivity. }
  split; [exact Hc |].
  apply (proj1 (calls_follow_productId ex_resolver ex_edit _ _
                  (ex_intro _ [ClickSaveAndNew; Settle 0 Resolved; ClickSave]
                     eq_refl)
                  Hc eq_refl) "p1"); [reflexivity | discriminate].
Defined.

(* --------------------------------------------------------------------- *)
(* The declared type of itemType                                         *)
(* --------------------------------------------------------------------- *)

Lemma call_data_is_call (c : effect) (d : obj) :
  call_data c = Some d → is_call c = true.
Proof. by destruct c. Qed.

Lemma handleSave_resume_itemType env shouldRedirect o w :
  itemType (ui (fst (handleSave_resume env shouldRedirect o w)))
  = itemType (ui w)
  ∨ itemType (ui (fst (handleSave_resume env shouldRedirect o w)))
    = c_itemType env.
Proof.
  run_cmd.
  destruct (productId_truthy (c_productId env)), o, shouldRedirect;
    cbn [fst ui itemType]; auto.
Qed.

Section Typed.

Variable resolver : obj -> resolver_result.
Variable P : ProductFormProps.

Lemma typed_world_step (w : world) (e : event) :
  typed_world w → typed_world (step resolver P w e).
Proof.
  unfold typed_world. intros [Ht Hin].
  destruct e as [| | | | | | k x | i o];
    cbn [step render v_save_disabled v_save_and_new_disabled v_fields].
  - destruct (loading (ui w)); [done |].
    unfold submit_click, handleSubmit. cbv zeta. case_decide; [| done].
    cbv [seq modify]. cbn [ui log inflight].
    rewrite handleSave_begin_world. cbv [suspend]. cbn [fst ui inflight].
    split; [exact Ht |]. apply Forall_app. split; [exact Hin |].
    by apply Forall_singleton.
  - destruct (loading (ui w)); [done |].
    unfold submit_click, handleSubmit. cbv zeta. case_decide; [| done].
    cbv [seq modify]. cbn [ui log inflight].
    rewrite handleSave_begin_world. cbv [suspend]. cbn [fst ui inflight].
    split; [exact Ht |]. apply Forall_app. split; [exact Hin |].
    by apply Forall_singleton.
  - run_cmd. split; [by left | exact Hin].
  - run_cmd. split; [by right | exact Hin].
  - done.
  - done.
  - case_decide; done.
  - destruct (inflight w !! i) as [k |] eqn:Hk; [| done].
    cbv [seq resume_at].
    destruct (handleSave_resume_world (s_env k) (s_redirect k) o
                {| ui := ui w; log := log w;
                   inflight := delete i (inflight w) |}) as [_ Hi].
    destruct (handleSave_resume_itemType (s_env k) (s_redirect k) o
                {| ui := ui w; log := log w;
                   inflight := delete i (inflight w) |}) as [Hty | Hty];
      rewrite Hty, Hi; cbn [ui inflight];
      (split; [| by apply Forall_delete]).
    + exact Ht.
    + exact (Forall_lookup_1 _ _ _ _ Hin Hk).
Qed.

(** X14.  The declared type `'product' | 'service'` is respected at run time: if
    the record's `type`, when it has a truthy one, is 'product' or
    'service', then in every reachable state `itemType` is one of the two,
    and so is the `type` of every record passed to create/update. *)
Theorem itemType_stays_typed (w : world) :
  (truthy (opt_get (initialData P) "type") = true →
   is_item_type (opt_get (initialData P) "type")) →
  reachable resolver P w →
  is_item_type (itemType (ui w))
  ∧ ∀ c d, c ∈ log w → call_data c = Some d →
      ∃ t, d !! "type" = Some t ∧ is_item_type t.
Proof.
  intros Hrec [es ->].
  assert (Hinit : typed_world (init P)
                  ∧ ∀ c d, c ∈ log (init P) → call_data c = Some d →
                      ∃ t, d !! "type" = Some t ∧ is_item_type t).
  { split; [split |].
    - cbn [init ui itemType]. unfold initial_itemType, js_or.
      destruct (truthy (opt_get (initialData P) "type")); [auto | by left].
    - constructor.
    - intros c d Hc. by apply elem_of_nil in Hc. }
  revert Hinit. generalize (init P).
  induction es as [| e es IH]; intros w [Hw Hlogw]; [split; [apply Hw | done] |].
  cbn [run foldl]. apply IH. split; [by apply typed_world_step |].
  intros c d Hc Hd.
  destruct (step_effects resolver P w e) as (l & Hlog & _ & Hl).
  rewrite Hlog in Hc. apply elem_of_app in Hc as [Hc | Hc]; [by eapply Hlogw |].
  destruct (Hl c Hc (call_data_is_call c d Hd)) as [d0 ->].
  rewrite request_data in Hd. injection Hd as <-.
  exists (itemType (ui w)). split; [apply lookup_insert_eq | apply Hw].
Qed.

End Typed.

(** The sample service record, after a toggle and a 'Save & New'. *)
Lemma itemType_stays_typed_witness :
  let w := run ex_resolver ex_edit (init ex_edit)
             [ClickProduct; ClickSaveAndNew; ClickService; Settle 0 Resolved] in
  is_item_type (itemType (ui w))
  ∧ ∀ c d, c ∈ log w → call_data c = Some d →
      ∃ t, d !! "type" = Some t ∧ is_item_type t.
Proof.
  cbv zeta.
  apply (itemType_stays_typed ex_resolver ex_edit).
  - intros _. right. reflexivity.
  - eexists. reflexivity.
Defined.

(* --------------------------------------------------------------------- *)
(* Toggling the type while a 'Save & New' is pending                     *)
(* --------------------------------------------------------------------- *)

Section StaleType.

Variable resolver : obj -> resolver_result.
Variable P : ProductFormProps.

Lemma save_and_new_parks (w0 : world) :
  loading (ui w0) = false →
  r_errors (resolver (form_values (ui w0))) = ∅ →
  inflight w0 = [] →
  inflight (step resolver P w0 ClickSaveAndNew)
  = [{| s_env := capture P (ui w0); s_redirect := false |}]
  ∧ itemType (ui (step resolver P w0 ClickSaveAndNew)) = itemType (ui w0).
Proof.
  intros Hl Hvalid Hin.
  cbn [step render v_save_and_new_disabled]. rewrite Hl.
  unfold submit_click, handleSubmit. cbv zeta. rewrite Hvalid.
  rewrite decide_True by done.
  cbv [seq modify]. cbn [ui log inflight].
  rewrite handleSave_begin_world. cbv [suspend]. cbn [fst ui inflight].
  by rewrite Hin.
Qed.

(** X15.  The toggle buttons stay enabled while a call is pending, and the parked
    handler still holds the type of the render that started it.  So when the
    user clicks 'Save & New' and switches the type before the call settles:
    if the call succeeds, the toggle and the form's `type` go back to the
    type selected at submission; if it fails, the newly selected type
    stays. *)
Theorem toggle_while_pending
    (w0 : world) (e : event) (err : error) :
  loading (ui w0) = false →
  r_errors (resolver (form_values (ui w0))) = ∅ →
  inflight w0 = [] →
  e = ClickProduct ∨ e = ClickService →
  itemType
    (ui (step resolver P
           (step resolver P (step resolver P w0 ClickSaveAndNew) e)
           (Settle 0 Resolved)))
  = itemType (ui w0)
  ∧ form_values
      (ui (step resolver P
             (step resolver P (step resolver P w0 ClickSaveAndNew) e)
             (Settle 0 Resolved))) !! "type"
    = Some (itemType (ui w0))
  ∧ itemType
      (ui (step resolver P
             (step resolver P (step resolver P w0 ClickSaveAndNew) e)
             (Settle 0 (Rejected err))))
    = itemType (ui (step resolver P (step resolver P w0 ClickSaveAndNew) e)).
Proof.
  intros Hl Hvalid Hin He.
  destruct (save_and_new_parks w0 Hl Hvalid Hin) as [Hpark _].
  set (w1 := step resolver P w0 ClickSaveAndNew) in *.
  assert (Hpark2 : inflight (step resolver P w1 e)
                   = [{| s_env := capture P (ui w0); s_redirect := false |}]).
  { destruct He as [-> | ->]; cbn [step]; run_cmd; exact Hpark. }
  set (w2 := step resolver P w1 e) in *.
  cbn [step]. rewrite Hpark2. cbn [lookup list_lookup s_env s_redirect].
  run_cmd.
  destruct (productId_truthy (productId P));
    cbn [fst ui itemType form_values];
    (split; [reflexivity |]); (split; [apply lookup_insert_eq | reflexivity]).
Qed.

End StaleType.

(** A new item: 'Save & New' as a product, switched to 'service' while the
    call is pending; on success the form is a product form again. *)
Lemma toggle_while_pending_witness :
  let w0 := fst (field_onChange "name" (JStr "Ink") (init ex_new)) in
  let w2 := step ex_resolver ex_new
              (step ex_resolver ex_new w0 ClickSaveAndNew) ClickService in
  itemType (ui w2) = JStr "service"
  ∧ itemType (ui (step ex_resolver ex_new w2 (Settle 0 Resolved)))
    = JStr "product"
  ∧ itemType (ui (step ex_resolver ex_new w2 (Settle 0 (Rejected ex_error))))
    = JStr "service".
Proof.
  cbv zeta.
  pose proof (toggle_while_pending ex_resolver ex_new
                (fst (field_onChange "name" (JStr "Ink") (init ex_new)))
                ClickService ex_error eq_refl eq_refl eq_refl
                (or_intror eq_refl)) as (Hok & _ & Hfail).
  split; [reflexivity |]. split; [exact Hok |].
  rewrite Hfail. reflexivity.
Defined.

(** A new item switched to 'service', saved with 'Save & New' and settled:
    the form's `type` field and the toggle agree. *)
Lemma type_field_follows_toggle_witness :
  let w := run ex_resolver ex_new (init ex_new)
             [ClickService; Change "name" (JStr "Ink"); ClickSaveAndNew;
              ClickProduct; Settle 0 Resolved] in
  reachable ex_resolver ex_new w ∧ type_in_sync w.
Proof.
  cbv zeta.
  assert (Hr : reachable ex_resolver ex_new
                 (run ex_resolver ex_new (init ex_new)
                    [ClickService; Change "name" (JStr "Ink");
                     ClickSaveAndNew; ClickProduct; Settle 0 Resolved]))
    by (eexists; reflexivity).
  split; [exact Hr |].
  exact (type_field_follows_toggle ex_resolver ex_new _ Hr).
Defined.
